(** * PyBDSF [image.py]: the [Image] container

    A shallow embedding of class [Image] (src/python/image.py): Python
    attribute access on an instance of the class, the map indirection
    ([get_map] / [put_map]), the state transfer used by multiprocessing
    ([__getstate__] / [__setstate__]), parameter loading ([load_pars]) and
    the delegating methods ([show_fit], [export_image], [write_catalog]).

    Methods are written in a state-and-exception monad over a [World] that
    holds the heap of options objects, what was printed, the sequence of
    collaborator calls, and the state of the outside (disk, plotting
    windows, ...), which only the collaborators interpret. *)

From Stdlib Require Import ZArith String Ascii List.
From stdpp Require Import base option gmap strings list.

Local Open Scope string_scope.
#[local] Set Warnings "-register-all".

(** ** Python values *)

(** A numpy array: its shape and the bit patterns of its elements. *)
Inductive ndarray := NDArray (shape : list nat) (buf : list Z).

(** Address of an options object on the heap. *)
Abbreviation loc := nat (only parsing).

Inductive PyVal :=
| VNone
| VBool (b : bool)
| VInt (z : Z)
| VFloat (bits : Z)
| VStr (s : string)
| VList (l : list PyVal)
| VDict (d : gmap string PyVal)
| VArr (a : ndarray)
| VRef (r : loc)                 (* an [Opts] instance *)
| VClass (name : string)         (* a class object *)
| VClassAttr (name : string).    (* what the class binds to [name]: a method or an inherited attribute *)

(** Keyword arguments, and the dictionary exchanged by the state transfer. *)
Abbreviation Kwargs := (gmap string PyVal) (only parsing).

(** ** Exceptions *)

Inductive ExcClass :=
| RuntimeError
| NotImplementedError            (* a subclass of RuntimeError, raised by [Op.__call__] *)
| AttributeError
| KeyError
| TypeError
| ValueError
| IOError
| tcError.                       (* raised by a type-checked property *)

(** An exception instance built from one message, as every [raise] of this
    module does: its class, and the message [str] gives back. *)
Record PyExc := mkExc { exc_class : ExcClass; exc_msg : string }.

(** [isinstance(e, RuntimeError)], the test of [except RuntimeError, err]. *)
Definition is_RuntimeError (e : PyExc) : bool :=
  match exc_class e with
  | RuntimeError | NotImplementedError => true
  | _ => false
  end.

(** [str(err)] *)
Definition str (e : PyExc) : string := exc_msg e.

(** [str(err)] where [err] may be [None]. *)
Definition str_opt (e : option PyExc) : string :=
  match e with Some e => str e | None => "None" end.

Inductive Res (A : Type) :=
| Ok (a : A)
| Raise (e : PyExc).
Arguments Ok {A} a.
Arguments Raise {A} e.

Definition res_bind {A B} (r : Res A) (k : A -> Res B) : Res B :=
  match r with Ok a => k a | Raise e => Raise e end.

Definition is_Ok {A} (r : Res A) : bool :=
  match r with Ok _ => true | Raise _ => false end.

(** ** The options object *)

(** [Opts]: the [filename] option and the other options by name. *)
Record Opts := mkOpts { filename : string; params : gmap string PyVal }.

Definition set_filename (o : Opts) (f : string) : Opts :=
  {| filename := f; params := params o |}.

(** ** The class namespace *)

Inductive TCKind := TInstanceOpts | TNArray | TAny | TBool | TString | TListString.

(** What the class binds a name to. *)
Inductive Member :=
| Declared (k : TCKind) (dflt : PyVal)  (* a type-checked property with its initial value *)
| DataDescr                             (* __class__, __dict__, __weakref__ *)
| ClassAttr.                            (* a method or another attribute found on the class *)

(** The class body, lines 41-55 (type-checked properties; those declared
    without a value start as None) and the methods, followed by what a
    new-style class inherits from [object]. *)
Definition class_Image : list (string * Member) :=
  [ ("opts", Declared TInstanceOpts VNone);
    ("image", Declared TNArray VNone);
    ("ch0", Declared TNArray VNone);
    ("ch0_Q", Declared TNArray VNone);
    ("ch0_U", Declared TNArray VNone);
    ("ch0_V", Declared TNArray VNone);
    ("header", Declared TAny VNone);
    ("mask", Declared TNArray VNone);
    ("masked", Declared TBool (VBool false));
    ("basedir", Declared TString (VStr "DUMMY"));
    ("completed_Ops", Declared TListString (VList []));
    ("_is_interactive_shell", Declared TBool (VBool false));
    ("waveletimage", Declared TBool (VBool false));
    ("_pi", Declared TBool (VBool false));
    ("do_cache", Declared TBool (VBool false));
    ("__init__", ClassAttr); ("__setstate__", ClassAttr); ("__getstate__", ClassAttr);
    ("get_map", ClassAttr); ("put_map", ClassAttr); ("list_pars", ClassAttr);
    ("set_pars", ClassAttr); ("process", ClassAttr); ("save_pars", ClassAttr);
    ("load_pars", ClassAttr); ("show_fit", ClassAttr); ("export_image", ClassAttr);
    ("write_catalog", ClassAttr);
    ("__class__", DataDescr); ("__dict__", DataDescr); ("__weakref__", DataDescr);
    ("__doc__", ClassAttr); ("__module__", ClassAttr); ("__delattr__", ClassAttr);
    ("__format__", ClassAttr); ("__getattribute__", ClassAttr); ("__hash__", ClassAttr);
    ("__new__", ClassAttr); ("__reduce__", ClassAttr); ("__reduce_ex__", ClassAttr);
    ("__repr__", ClassAttr); ("__setattr__", ClassAttr); ("__sizeof__", ClassAttr);
    ("__str__", ClassAttr); ("__subclasshook__", ClassAttr) ].

Fixpoint assoc {A} (k : string) (l : list (string * A)) : option A :=
  match l with
  | [] => None
  | (k', a) :: l' => if String.eqb k k' then Some a else assoc k l'
  end.

Definition class_lookup (name : string) : option Member := assoc name class_Image.

(** Modelled from the spec: the type-checked properties ([Instance],
    [NArray], [Any], [Bool], [String], [List], imported through [opts]) are
    not part of this file. A property accepts a value of its declared type
    and stores it as it is; [Instance] and [NArray], whose initial value is
    None, accept None as well; anything else is refused with an error. *)
Definition tc_accepts (k : TCKind) (v : PyVal) : bool :=
  match k, v with
  | TAny, _ => true
  | TInstanceOpts, (VRef _ | VNone) => true
  | TNArray, (VArr _ | VNone) => true
  | TBool, VBool _ => true
  | TString, VStr _ => true
  | TListString, VList l => forallb (fun x => match x with VStr _ => true | _ => false end) l
  | _, _ => false
  end.

(** ** The container *)

(** An instance: its identity ([id(self)]) and its attribute dictionary. *)
Record Image := mkImage { obj_id : nat; attrs : gmap string PyVal }.

Definition with_attr (self : Image) (name : string) (v : PyVal) : Image :=
  {| obj_id := obj_id self; attrs := <[name := v]> (attrs self) |}.

Definition no_attribute (name : string) : PyExc :=
  mkExc AttributeError ("'Image' object has no attribute '" +:+ name +:+ "'").

(** [getattr(self, name)]: a type-checked property gives the stored value
    or its initial value, a data descriptor of the runtime answers by
    itself, and otherwise the instance dictionary comes before the class. *)
Definition getattr (self : Image) (name : string) : Res PyVal :=
  match class_lookup name with
  | Some (Declared _ dflt) => Ok (default dflt (attrs self !! name))
  | Some DataDescr =>
      if String.eqb name "__class__" then Ok (VClass "Image")
      else if String.eqb name "__dict__" then Ok (VDict (attrs self))
      else Ok VNone
  | Some ClassAttr => Ok (default (VClassAttr name) (attrs self !! name))
  | None =>
      match attrs self !! name with
      | Some v => Ok v
      | None => Raise (no_attribute name)
      end
  end.

(** [hasattr(self, name)]: whether [getattr] succeeds. *)
Definition hasattr (self : Image) (name : string) : bool := is_Ok (getattr self name).

(** [setattr(self, name, v)] *)
Definition setattr (self : Image) (name : string) (v : PyVal) : Res Image :=
  match class_lookup name with
  | Some (Declared k _) =>
      if tc_accepts k v then Ok (with_attr self name v)
      else Raise (mkExc tcError ("Cannot set attribute '" +:+ name +:+ "'"))
  | Some DataDescr =>
      if String.eqb name "__dict__" then
        match v with
        | VDict d => Ok {| obj_id := obj_id self; attrs := d |}
        | _ => Raise (mkExc TypeError "__dict__ must be set to a dictionary")
        end
      else if String.eqb name "__class__" then
        Raise (mkExc TypeError "__class__ must be set to new-style class")
      else Raise (mkExc AttributeError "attribute '__weakref__' of 'Image' objects is not writable")
  | _ => Ok (with_attr self name v)
  end.

(** Truth value of an attribute, as [if self.do_cache:] takes it. An array
    of more than one element has none. *)
Definition py_bool (v : PyVal) : Res bool :=
  match v with
  | VNone => Ok false
  | VBool b => Ok b
  | VInt z => Ok (negb (z =? 0)%Z)
  | VFloat bits => Ok (negb ((bits =? 0)%Z || (bits =? 2 ^ 63)%Z))
  | VStr s => Ok (negb (String.eqb s ""))
  | VList l => Ok (negb (Nat.eqb (length l) 0))
  | VDict d => Ok (negb (Nat.eqb (size d) 0))
  | VArr (NDArray _ buf) =>
      match buf with
      | [] => Ok false
      | [x] => Ok (negb (x =? 0)%Z)
      | _ => Raise (mkExc ValueError "The truth value of an array with more than one element is ambiguous")
      end
  | VRef _ | VClass _ | VClassAttr _ => Ok true
  end.

(** [self.do_cache] and [self._is_interactive_shell], read as conditions. *)
Definition do_cache (self : Image) : Res bool :=
  res_bind (getattr self "do_cache") py_bool.

Definition _is_interactive_shell (self : Image) : Res bool :=
  res_bind (getattr self "_is_interactive_shell") py_bool.

(** ** State transfer

    Both methods only touch the instance. *)

#[local] Instance Res_bind : MBind Res := fun A B k r => res_bind r k.

(** [state[key]] *)
Definition getitem (state : gmap string PyVal) (key : string) : Res PyVal :=
  match state !! key with
  | Some v => Ok v
  | None => Raise (mkExc KeyError ("'" +:+ key +:+ "'"))
  end.

Definition __setstate__ (self : Image) (state : gmap string PyVal) : Res Image :=
  v ← getitem state "thresh_pix";
  self ← setattr self "thresh_pix" v;
  v ← getitem state "minpix_isl";
  self ← setattr self "minpix_isl" v;
  v ← getitem state "clipped_mean";
  setattr self "clipped_mean" v.

Definition __getstate__ (self : Image) : Res (gmap string PyVal) :=
  let state : gmap string PyVal := ∅ in
  v ← getattr self "thresh_pix";
  let state := <["thresh_pix" := v]> state in
  v ← getattr self "minpix_isl";
  let state := <["minpix_isl" := v]> state in
  v ← getattr self "clipped_mean";
  let state := <["clipped_mean" := v]> state in
  Ok state.

(** ** The world and the collaborators *)

(** One entry per call that leaves this module. *)
Inductive Call :=
| StoreMap (img : nat) (map_name : string) (map_data : ndarray)
| RetrieveMap (img : nat) (map_name : string)
| LoadPars (loadfile : string)
| PlotResults (img : nat) (kwargs : Kwargs)
| ExportImage (img : nat) (kwargs : Kwargs)
| WriteCatalog (img : nat) (kwargs : Kwargs).

Definition ESC : string := String (ascii_of_nat 27) "".
Definition NL : string := String (ascii_of_nat 10) "".

(** ["\n\033[31;1mERROR\033[0m: "] *)
Definition ERROR_prefix : string := NL +:+ ESC +:+ "[31;1mERROR" +:+ ESC +:+ "[0m: ".

(** The world a method runs in. [Ext] is the outside: the disk with the
    cached maps and the save files, the plotting windows. Only the
    collaborators look into it. *)
Record World (Ext : Type) := mkWorld {
  heap : gmap loc Opts;      (* the options objects *)
  stdout : list string;      (* what [print] wrote, one entry per statement *)
  calls : list Call;         (* the calls to collaborators, in order *)
  ext : Ext
}.
Arguments mkWorld {Ext} heap stdout calls ext.
Arguments heap {Ext} w.
Arguments stdout {Ext} w.
Arguments calls {Ext} w.
Arguments ext {Ext} w.

(** The world after a collaborator call [c] that left the outside as [x],
    and after a [print]. *)
Definition with_call {Ext} (w : World Ext) (c : Call) (x : Ext) : World Ext :=
  mkWorld (heap w) (stdout w) (calls w ++ [c]) x.

Definition with_print {Ext} (w : World Ext) (s : string) : World Ext :=
  mkWorld (heap w) (stdout w ++ [s]) (calls w) (ext w).

Definition with_heap {Ext} (w : World Ext) (h : gmap loc Opts) : World Ext :=
  mkWorld h (stdout w) (calls w) (ext w).

(** ** A concrete outside

    A disk that keeps the cached maps as 32-bit words, whatever the width
    of the array handed over, and the save files by path. *)
Module Disk.

Record t := mk {
  cache : gmap (nat * string) ndarray;   (* by container and map name *)
  files : gmap string (option Opts)      (* a file holds saved parameters, or something else *)
}.

Definition to_float32 (a : ndarray) : ndarray :=
  match a with NDArray shape buf => NDArray shape (map (fun z => Z.land z (2 ^ 32 - 1)) buf) end.

Definition store_map (img : Image) (map_name : string) (map_data : ndarray) (d : t)
  : Res unit * t :=
  (Ok tt, {| cache := <[(obj_id img, map_name) := to_float32 map_data]> (cache d);
             files := files d |}).

Definition retrieve_map (img : Image) (map_name : string) (d : t) : Res ndarray * t :=
  match cache d !! (obj_id img, map_name) with
  | Some a => (Ok a, d)
  | None => (Raise (mkExc IOError ("No such file: '" +:+ map_name +:+ ".bin'")), d)
  end.

Definition path_exists (p : string) (d : t) : bool := bool_decide (is_Some (files d !! p)).

Definition load_pars (p : string) (d : t) : Res (option Opts * option PyExc) * t :=
  match files d !! p with
  | Some (Some pars) => (Ok (Some pars, None), d)
  | Some None => (Ok (None, Some (mkExc KeyError "invalid load key")), d)
  | None => (Ok (None, Some (mkExc IOError "No such file or directory")), d)
  end.

(** An exporter that needs a processed image and knows one image type. *)
Definition export_image (img : Image) (kwargs : Kwargs) (d : t) : Res PyVal * t :=
  if negb (hasattr img "nisl") then
    (Raise (mkExc RuntimeError "Image has not been processed."), d)
  else match kwargs !! "img_type" with
       | Some (VStr "gaus_resid") => (Ok (VBool true), d)
       | _ => (Raise (mkExc NotImplementedError "Unknown image type."), d)
       end.

Definition write_catalog (img : Image) (kwargs : Kwargs) (d : t) : Res PyVal * t :=
  if negb (hasattr img "nisl") then
    (Raise (mkExc RuntimeError "Image has not been processed."), d)
  else (Ok (VBool true), d).

Definition plotresults (img : Image) (kwargs : Kwargs) (d : t) : Res unit * t := (Ok tt, d).



(** A disk with one valid save file and one file that is not a save file. *)
Definition saved_pars : Opts :=
  mkOpts "other.fits" {[ "thresh_isl" := VFloat 4613937818241073152 ]}.

Definition disk0 : t :=
  {| cache := ∅;
     files := {[ "img.fits.pybdsm.sav" := Some saved_pars; "notes.txt" := None ]} |}.

Definition opts0 : Opts := mkOpts "img.fits" ∅.

Definition world0 : World t := mkWorld ∅ [] [] disk0.

(** The world and the container after [Image(opts0)] at address 7. *)
Definition world1 : World t := mkWorld {[ 0 := opts0 ]} [] [] disk0.

Definition img1 : Image :=
  mkImage 7 (<["extraparams" := VDict ∅]> (<["_prev_opts" := VNone]> {[ "opts" := VRef 0 ]})).

Definition a1 : ndarray := NDArray [2] [4294967297%Z; 5%Z].

End Disk.

Section Image.

Context {Ext : Type}.
#[local] Abbreviation World := (World Ext).
#[local] Set Default Proof Using "Type".

(** Modelled from the spec: the collaborators ([functions.store_map],
    [functions.retrieve_map], [interface.load_pars],
    [interface.export_image], [interface.write_catalog],
    [plotresults.plotresults]) and [os.path.exists] are not part of this
    file. Each receives the container it is called on, acts on the outside
    only, and returns or raises. [interface.load_pars] returns the options
    read from the file, if any, and the error it met, if any. *)
Variable func_store_map : Image -> string -> ndarray -> Ext -> Res unit * Ext.
Variable func_retrieve_map : Image -> string -> Ext -> Res ndarray * Ext.
Variable os_path_exists : string -> Ext -> bool.
Variable interface_load_pars : string -> Ext -> Res (option Opts * option PyExc) * Ext.
Variable interface_export_image : Image -> Kwargs -> Ext -> Res PyVal * Ext.
Variable interface_write_catalog : Image -> Kwargs -> Ext -> Res PyVal * Ext.
Variable plotresults_plotresults : Image -> Kwargs -> Ext -> Res unit * Ext.

(** *** The monad *)

Definition M (A : Type) : Type := World -> Res A * World.

Definition ret {A} (a : A) : M A := fun w => (Ok a, w).
Definition raise {A} (e : PyExc) : M A := fun w => (Raise e, w).
Definition bind {A B} (m : M A) (k : A -> M B) : M B :=
  fun w => match m w with
           | (Ok a, w') => k a w'
           | (Raise e, w') => (Raise e, w')
           end.
Definition lift {A} (r : Res A) : M A := fun w => (r, w).

(** [try: m  except RuntimeError, err: h err] *)
Definition try_except_RuntimeError {A} (m : M A) (h : PyExc -> M A) : M A :=
  fun w => match m w with
           | (Raise e, w') => if is_RuntimeError e then h e w' else (Raise e, w')
           | r => r
           end.

Definition print (s : string) : M unit := fun w => (Ok tt, with_print w s).

(** A call to a collaborator: recorded, then run on the outside. *)
Definition call {A} (c : Call) (f : Ext -> Res A * Ext) : M A :=
  fun w => let '(r, x) := f (ext w) in (r, with_call w c x).

Definition exists_path (p : string) : M bool := fun w => (Ok (os_path_exists p (ext w)), w).

(** A new options object on the heap. *)
Definition alloc (o : Opts) : M loc :=
  fun w => let r := fresh (dom (heap w)) in (Ok r, with_heap w (<[r := o]> (heap w))).

#[local] Instance M_ret : MRet M := @ret.
#[local] Instance M_bind : MBind M := fun A B k m => bind m k.

(** *** Construction *)

(** [Image(opts)] for an instance placed at address [addr]. *)
Definition __init__ (addr : nat) (opts : Opts) : M Image :=
  r ← alloc opts;
  self ← lift (setattr (mkImage addr ∅) "opts" (VRef r));
  self ← lift (setattr self "_prev_opts" VNone);
  lift (setattr self "extraparams" (VDict ∅)).

(** *** The map indirection *)

Definition get_map (self : Image) (map_name : string) : M PyVal :=
  c ← lift (do_cache self);
  if c : bool then
    map_data ← call (RetrieveMap (obj_id self) map_name) (func_retrieve_map self map_name);
    mret (VArr map_data)
  else
    lift (getattr self map_name).

(** The mutated container is returned. *)
Definition put_map (self : Image) (map_name : string) (map_data : ndarray) : M Image :=
  c ← lift (do_cache self);
  if c : bool then
    _ ← call (StoreMap (obj_id self) map_name map_data) (func_store_map self map_name map_data);
    v ← get_map self map_name;
    lift (setattr self map_name v)
  else
    lift (setattr self map_name (VArr map_data)).

(** *** Loading parameters *)

Definition no_filename : PyExc :=
  mkExc AttributeError "'NoneType' object has no attribute 'filename'".

(** [self.opts.filename] *)
Definition get_opts_filename (self : Image) : M string :=
  o ← lift (getattr self "opts");
  match o with
  | VRef r => fun w => match heap w !! r with
                       | Some ob => (Ok (filename ob), w)
                       | None => (Raise no_filename, w)
                       end
  | _ => raise no_filename
  end.

(** [self.opts.filename = f] *)
Definition put_opts_filename (self : Image) (f : string) : M unit :=
  o ← lift (getattr self "opts");
  match o with
  | VRef r => fun w => match heap w !! r with
                       | Some ob => (Ok tt, with_heap w (<[r := set_filename ob f]> (heap w)))
                       | None => (Raise no_filename, w)
                       end
  | _ => raise no_filename
  end.

(** Lines 119-120: the path that is loaded. *)
Definition resolve_loadfile (self : Image) (loadfile : option string) : M string :=
  match loadfile with
  | None | Some "" => f ← get_opts_filename self; mret (f +:+ ".pybdsm.sav")
  | Some p => mret p
  end.

(** Lines 121-138, for the resolved path. [interface.load_pars] builds the
    image [timg] it returns from the options it read, so the options
    object [timg.opts] is new on the heap. *)
Definition load_pars_from (self : Image) (loadfile : string) : M Image :=
  e ← exists_path loadfile;
  if e : bool then
    '(timg, err) ← call (LoadPars loadfile) (interface_load_pars loadfile);
    match timg with
    | Some pars =>
        timg_opts ← alloc pars;
        orig_filename ← get_opts_filename self;
        self ← lift (setattr self "opts" (VRef timg_opts));
        _ ← put_opts_filename self orig_filename;
        mret self
    | None =>
        i ← lift (_is_interactive_shell self);
        if i : bool then
          _ ← print (ERROR_prefix +:+ "'" +:+ loadfile +:+ "' is not a valid parameter save file.");
          mret self
        else raise (mkExc RuntimeError (str_opt err))
    end
  else
    i ← lift (_is_interactive_shell self);
    if i : bool then
      _ ← print (ERROR_prefix +:+ "File '" +:+ loadfile +:+ "' not found.");
      mret self
    else raise (mkExc RuntimeError "File not found").

Definition load_pars (self : Image) (loadfile : option string) : M Image :=
  loadfile ← resolve_loadfile self loadfile;
  load_pars_from self loadfile.

(** *** Delegations *)

Definition show_fit (self : Image) (kwargs : Kwargs) : M bool :=
  if negb (hasattr self "nisl") then
    _ ← print "Image has not been processed. Please run process_image first.";
    mret false
  else
    _ ← call (PlotResults (obj_id self) kwargs) (plotresults_plotresults self kwargs);
    mret true.

(** The handler shared by [export_image] and [write_catalog]; a method that
    ends without [return] gives None. *)
Definition on_RuntimeError (self : Image) (err : PyExc) : M PyVal :=
  i ← lift (_is_interactive_shell self);
  if i : bool then
    _ ← print (ERROR_prefix +:+ str err);
    mret VNone
  else raise (mkExc RuntimeError (str err)).

Definition export_image (self : Image) (kwargs : Kwargs) : M PyVal :=
  try_except_RuntimeError
    (result ← call (ExportImage (obj_id self) kwargs) (interface_export_image self kwargs);
     mret result)
    (on_RuntimeError self).

Definition write_catalog (self : Image) (kwargs : Kwargs) : M PyVal :=
  try_except_RuntimeError
    (result ← call (WriteCatalog (obj_id self) kwargs) (interface_write_catalog self kwargs);
     mret result)
    (on_RuntimeError self).

(** ** Properties of attribute access *)

(** A name under which a map can be kept: one the class does not bind, or
    one it declares as an array ([NArray]) or leaves untyped ([Any]). The
    other names of the class are its flags, its options and its methods. *)
Definition is_map_name (name : string) : bool :=
  match class_lookup name with
  | None | Some (Declared TNArray _) | Some (Declared TAny _) => true
  | _ => false
  end.


(** The container holds an options object. *)
Definition has_options (w : World) (self : Image) : Prop :=
  ∃ r o, getattr self "opts" = Ok (VRef r) ∧ heap w !! r = Some o.

Ltac unfold_M :=
  unfold mbind, mret, M_bind, M_ret, Res_bind, bind, ret, lift, raise, call, print,
    exists_path, alloc, res_bind.

Lemma setattr_map_name self name a :
  is_map_name name = true →
  setattr self name (VArr a) = Ok (with_attr self name (VArr a)).
Proof.
  unfold is_map_name, setattr. intros H.
  destruct (class_lookup name) as [[[] ?| |]|]; try discriminate; reflexivity.
Qed.

Lemma getattr_with_attr self name v :
  is_map_name name = true →
  getattr (with_attr self name v) name = Ok v.
Proof.
  unfold is_map_name, getattr. intros H.
  destruct (class_lookup name) as [[[] ?| |]|]; try discriminate;
    simpl; by rewrite lookup_insert_eq.
Qed.

(** Writing a map leaves the type-checked properties of other names as
    they were, the flags in particular. *)
Lemma getattr_with_attr_declared self name v other k dflt :
  name ≠ other →
  class_lookup other = Some (Declared k dflt) →
  getattr (with_attr self name v) other = getattr self other.
Proof.
  intros Hne Hc. unfold getattr. rewrite Hc. simpl. by rewrite lookup_insert_ne.
Qed.

Lemma is_map_name_not_declared name other k dflt :
  is_map_name name = true →
  class_lookup other = Some (Declared k dflt) →
  (k = TNArray ∨ k = TAny → False) →
  name ≠ other.
Proof.
  unfold is_map_name. intros H Hc Hk ->. rewrite Hc in H.
  destruct k; try discriminate; apply Hk; auto.
Qed.

Lemma do_cache_with_attr self name v :
  is_map_name name = true →
  do_cache (with_attr self name v) = do_cache self.
Proof.
  intros H. unfold do_cache.
  rewrite (getattr_with_attr_declared self name v "do_cache" TBool (VBool false)); try done.
  eapply is_map_name_not_declared; [done..|]. by intros [|].
Qed.

Lemma opts_with_attr self name v :
  is_map_name name = true →
  getattr (with_attr self name v) "opts" = getattr self "opts".
Proof.
  intros H.
  rewrite (getattr_with_attr_declared self name v "opts" TInstanceOpts VNone); try done.
  eapply is_map_name_not_declared; [done..|]. by intros [|].
Qed.

(** A name the class does not bind is looked up in the instance only. *)
Lemma getattr_unbound self name :
  class_lookup name = None →
  getattr self name = match attrs self !! name with
                      | Some v => Ok v
                      | None => Raise (no_attribute name)
                      end.
Proof. intros H. unfold getattr. by rewrite H. Qed.

Lemma hasattr_unbound self name :
  class_lookup name = None →
  hasattr self name = bool_decide (is_Some (attrs self !! name)).
Proof.
  intros H. unfold hasattr. rewrite getattr_unbound by done.
  destruct (attrs self !! name).
  - by rewrite bool_decide_eq_true_2 by eauto.
  - by rewrite bool_decide_eq_false_2 by (by intros [? ?]).
Qed.

(** ** The map indirection *)

(** C2. With caching disabled, [put_map] on a map name sets the attribute
    to the array it was given, without any call to the external store, and
    [get_map] called immediately afterwards returns exactly that array,
    again without touching the world. *)
Theorem put_map_get_map_uncached (self : Image) (map_name : string) (map_data : ndarray) (w : World) :
  is_map_name map_name = true →
  do_cache self = Ok false →
  let self' := with_attr self map_name (VArr map_data) in
  put_map self map_name map_data w = (Ok self', w) ∧
  get_map self' map_name w = (Ok (VArr map_data), w).
Proof.
  intros Hn Hc self'. unfold self'. split.
  - unfold put_map. unfold_M. rewrite Hc. simpl. by rewrite setattr_map_name.
  - unfold get_map. unfold_M. rewrite do_cache_with_attr, Hc by done. simpl.
    by rewrite getattr_with_attr.
Qed.


(** C9 (as the code has it). With caching disabled, [get_map] is the plain
    attribute read and leaves the world as it is. For a name never written
    it fails with an attribute-not-found error when the class does not bind
    the name, and returns the declared initial value when the name is one
    of the type-checked properties of the class. *)
Theorem get_map_uncached (self : Image) (map_name : string) (w : World) :
  do_cache self = Ok false →
  get_map self map_name w = (getattr self map_name, w) ∧
  (∀ v, is_map_name map_name = true → attrs self !! map_name = Some v →
        get_map self map_name w = (Ok v, w)) ∧
  (class_lookup map_name = None → attrs self !! map_name = None →
        get_map self map_name w = (Raise (no_attribute map_name), w)) ∧
  (∀ k dflt, class_lookup map_name = Some (Declared k dflt) → attrs self !! map_name = None →
        get_map self map_name w = (Ok dflt, w)).
Proof.
  intros Hc.
  assert (Hg : get_map self map_name w = (getattr self map_name, w)).
  { unfold get_map. unfold_M. by rewrite Hc. }
  rewrite Hg. repeat split.
  - intros v Hn Hv. unfold is_map_name in Hn. unfold getattr.
    destruct (class_lookup map_name) as [[[] ?| |]|]; try discriminate; by rewrite Hv.
  - intros Hcl Hv. by rewrite getattr_unbound, Hv.
  - intros k dflt Hcl Hv. unfold getattr. by rewrite Hcl, Hv.
Qed.

(** ** Delegations *)

(** C6. When [nisl] is absent, [show_fit] prints its message and returns
    False, and nothing is called: the sequence of collaborator calls and
    the outside are as before. When [nisl] is present, the plotting
    collaborator is called once with the container and the keyword
    arguments, and [show_fit] returns True when that call returns (an error
    of the collaborator passes through). *)
Theorem show_fit_spec (self : Image) (kwargs : Kwargs) (w : World) :
  (attrs self !! "nisl" = None →
     let w' := with_print w "Image has not been processed. Please run process_image first." in
     show_fit self kwargs w = (Ok false, w') ∧ calls w' = calls w ∧ ext w' = ext w) ∧
  (is_Some (attrs self !! "nisl") →
     let c := PlotResults (obj_id self) kwargs in
     match plotresults_plotresults self kwargs (ext w) with
     | (Ok _, x) => show_fit self kwargs w = (Ok true, with_call w c x)
     | (Raise e, x) => show_fit self kwargs w = (Raise e, with_call w c x)
     end).
Proof.
  split.
  - intros Hn w'. unfold show_fit. rewrite hasattr_unbound by reflexivity.
    rewrite bool_decide_eq_false_2 by (rewrite Hn; by intros [? ?]). by simpl.
  - intros Hn c. unfold show_fit. rewrite hasattr_unbound by reflexivity.
    rewrite bool_decide_eq_true_2 by done. simpl. unfold_M.
    by destruct (plotresults_plotresults self kwargs (ext w)) as [[[]|e] x].
Qed.

(** C4 (as the code has it). When the collaborator of [export_image] or
    [write_catalog] raises a runtime error [err]: outside the interactive
    shell the method raises a new RuntimeError whose message is [str(err)],
    which is [err] itself when [err] is a plain RuntimeError; in the
    interactive shell the method prints the error after the ERROR prefix
    and returns None. Either way nothing but a RuntimeError leaves the
    method. *)
Theorem delegation_RuntimeError (self : Image) (kwargs : Kwargs) (w : World)
    (err : PyExc) (x : Ext) (interactive : bool) :
  is_RuntimeError err = true →
  _is_interactive_shell self = Ok interactive →
  let outcome (c : Call) : Res PyVal * World :=
    if interactive then (Ok VNone, with_print (with_call w c x) (ERROR_prefix +:+ str err))
    else (Raise (mkExc RuntimeError (str err)), with_call w c x) in
  (interface_export_image self kwargs (ext w) = (Raise err, x) →
     export_image self kwargs w = outcome (ExportImage (obj_id self) kwargs)) ∧
  (interface_write_catalog self kwargs (ext w) = (Raise err, x) →
     write_catalog self kwargs w = outcome (WriteCatalog (obj_id self) kwargs)) ∧
  (exc_class err = RuntimeError → mkExc RuntimeError (str err) = err).
Proof.
  intros He Hi outcome. repeat split.
  - intros Hc. unfold export_image, try_except_RuntimeError, on_RuntimeError. unfold_M.
    rewrite Hc, He, Hi. unfold outcome. by destruct interactive.
  - intros Hc. unfold write_catalog, try_except_RuntimeError, on_RuntimeError. unfold_M.
    rewrite Hc, He, Hi. unfold outcome. by destruct interactive.
  - destruct err as [c m]. simpl. by intros ->.
Qed.

(** ** Loading parameters *)

Lemma get_opts_filename_ok self w r o :
  getattr self "opts" = Ok (VRef r) → heap w !! r = Some o →
  get_opts_filename self w = (Ok (filename o), w).
Proof. intros Hr Ho. unfold get_opts_filename. unfold_M. by rewrite Hr, Ho. Qed.

(** Resolving the path reads the options at most. *)
Lemma resolve_loadfile_world self loadfile w : (resolve_loadfile self loadfile w).2 = w.
Proof.
  assert (H : ∀ w, (get_opts_filename self w).2 = w).
  { intros w0. unfold get_opts_filename. unfold_M.
    destruct (getattr self "opts") as [[]|]; try done.
    by destruct (heap w0 !! r). }
  assert (Hd : (resolve_loadfile self None w).2 = w).
  { unfold resolve_loadfile. unfold_M. specialize (H w).
    by destruct (get_opts_filename self w) as [[]?]. }
  destruct loadfile as [[|a p]|]; done.
Qed.

Lemma resolve_loadfile_given self p w :
  p ≠ "" → resolve_loadfile self (Some p) w = (Ok p, w).
Proof. by destruct p. Qed.

Lemma load_pars_resolved self loadfile p w :
  resolve_loadfile self loadfile w = (Ok p, w) →
  load_pars self loadfile w = load_pars_from self p w.
Proof. intros H. unfold load_pars. unfold_M. by rewrite H. Qed.

(** C8. On a container that holds its options object, [load_pars] called
    with None or with the empty string loads from the options' [filename]
    followed by '.pybdsm.sav'; a non-empty path is used as it is. *)
Theorem load_pars_default_path (self : Image) (w : World) (r : loc) (o : Opts) :
  getattr self "opts" = Ok (VRef r) →
  heap w !! r = Some o →
  let dflt := filename o +:+ ".pybdsm.sav" in
  resolve_loadfile self None w = (Ok dflt, w) ∧
  resolve_loadfile self (Some "") w = (Ok dflt, w) ∧
  load_pars self None w = load_pars_from self dflt w ∧
  load_pars self (Some "") w = load_pars_from self dflt w ∧
  ∀ p, p ≠ "" →
       resolve_loadfile self (Some p) w = (Ok p, w) ∧
       load_pars self (Some p) w = load_pars_from self p w.
Proof.
  intros Hr Ho dflt.
  assert (Hd : resolve_loadfile self None w = (Ok dflt, w)).
  { unfold resolve_loadfile. unfold_M. by rewrite (get_opts_filename_ok self w r o). }
  repeat split; try done; try (by apply load_pars_resolved).
  - by apply resolve_loadfile_given.
  - by apply load_pars_resolved, resolve_loadfile_given.
Qed.

(** C3. When the path that [load_pars] resolves (the path given, or the
    default one) does not exist: outside the interactive shell a
    RuntimeError with message 'File not found' is raised; in the
    interactive shell the formatted error is printed, nothing is raised,
    and the container, its options object included, is as before. *)
Theorem load_pars_file_not_found (self : Image) (loadfile : option string) (p : string)
    (w : World) (interactive : bool) :
  resolve_loadfile self loadfile w = (Ok p, w) →
  os_path_exists p (ext w) = false →
  _is_interactive_shell self = Ok interactive →
  load_pars self loadfile w =
    if interactive
    then (Ok self, with_print w (ERROR_prefix +:+ "File '" +:+ p +:+ "' not found."))
    else (Raise (mkExc RuntimeError "File not found"), w).
Proof.
  intros Hp He Hi. rewrite (load_pars_resolved _ _ _ _ Hp).
  unfold load_pars_from. unfold_M. rewrite He, Hi. by destruct interactive.
Qed.


(** C10. When the resolved path exists and the loader returns an image
    with options [pars]: the container's [opts] attribute is rebound to the
    loaded options object, a new object [r'] on the heap, whose [filename]
    is then set to the one the container had before; every other option is
    the loaded one, every other attribute of the container is as before,
    and the old options object is not touched. *)
Theorem load_pars_success (self : Image) (loadfile : option string) (p : string)
    (w : World) (r : loc) (o pars : Opts) (err : option PyExc) (x : Ext) :
  getattr self "opts" = Ok (VRef r) →
  heap w !! r = Some o →
  resolve_loadfile self loadfile w = (Ok p, w) →
  os_path_exists p (ext w) = true →
  interface_load_pars p (ext w) = (Ok (Some pars, err), x) →
  let r' := fresh (dom (heap w)) in
  let self' := with_attr self "opts" (VRef r') in
  let w' := mkWorld (<[r' := set_filename pars (filename o)]> (heap w))
                    (stdout w) (calls w ++ [LoadPars p]) x in
  load_pars self loadfile w = (Ok self', w') ∧
  getattr self' "opts" = Ok (VRef r') ∧
  heap w' !! r' = Some (mkOpts (filename o) (params pars)) ∧
  get_opts_filename self' w' = (Ok (filename o), w') ∧
  r' ≠ r ∧ heap w' !! r = Some o ∧
  ∀ name, name ≠ "opts" → attrs self' !! name = attrs self !! name.
Proof.
  intros Hr Ho Hp He Hl r' self' w'.
  assert (Hne : r' ≠ r).
  { intros Heq. apply (is_fresh (dom (heap w))). fold r'. rewrite Heq.
    apply elem_of_dom. eauto. }
  assert (Hself' : getattr self' "opts" = Ok (VRef r')).
  { unfold self', getattr. simpl. by rewrite lookup_insert_eq. }
  assert (Hnew : heap w' !! r' = Some (mkOpts (filename o) (params pars))).
  { unfold w'. simpl. by rewrite lookup_insert_eq. }
  repeat split; try done.
  - rewrite (load_pars_resolved _ _ _ _ Hp).
    unfold load_pars_from. unfold_M. rewrite He, Hl. simpl.
    fold r'. unfold get_opts_filename, put_opts_filename. unfold_M.
    rewrite Hr. simpl. rewrite lookup_insert_ne, Ho by done.
    simpl. rewrite lookup_insert_eq. simpl. rewrite lookup_insert_eq.
    unfold with_heap, with_call, w'. simpl. by rewrite insert_insert_eq.
  - by apply (get_opts_filename_ok self' w' r' (mkOpts (filename o) (params pars))).
  - unfold w'. simpl. by rewrite lookup_insert_ne.
  - intros name Hn. unfold self'. simpl. by rewrite lookup_insert_ne.
Qed.

(** The constructor leaves a container that holds its options object. *)
Lemma init_result addr o w :
  let r := fresh (dom (heap w)) in
  __init__ addr o w =
    (Ok (mkImage addr (<["extraparams" := VDict ∅]> (<["_prev_opts" := VNone]> (<["opts" := VRef r]> ∅)))),
     with_heap w (<[r := o]> (heap w))).
Proof. reflexivity. Qed.

Lemma init_has_options addr o w self w' :
  __init__ addr o w = (Ok self, w') → has_options w' self.
Proof.
  rewrite init_result. intros [= <- <-].
  exists (fresh (dom (heap w))), o. split.
  - unfold getattr. simpl.
    by rewrite lookup_insert_ne, lookup_insert_ne, lookup_insert_eq.
  - simpl. by rewrite lookup_insert_eq.
Qed.

(** Writing maps keeps the options object in place. *)
Lemma put_map_has_options self map_name map_data w self' w' :
  is_map_name map_name = true →
  has_options w self →
  put_map self map_name map_data w = (Ok self', w') →
  has_options w' self'.
Proof.
  intros Hn (r & o & Hr & Ho). unfold put_map, get_map. unfold_M.
  destruct (do_cache self) as [[]|]; simpl; try discriminate.
  - destruct (func_store_map _ _ _ _) as [[[]|] x1]; simpl; try discriminate.
    destruct (func_retrieve_map _ _ _) as [[a|] x2]; simpl; try discriminate.
    rewrite setattr_map_name by done. intros [= <- <-].
    exists r, o. by rewrite opts_with_attr.
  - rewrite setattr_map_name by done. intros [= <- <-].
    exists r, o. by rewrite opts_with_attr.
Qed.

(** ** Further properties of the map indirection *)

Lemma interactive_with_attr self name v :
  is_map_name name = true →
  _is_interactive_shell (with_attr self name v) = _is_interactive_shell self.
Proof.
  intros H. unfold _is_interactive_shell.
  rewrite (getattr_with_attr_declared self name v "_is_interactive_shell" TBool (VBool false));
    try done.
  eapply is_map_name_not_declared; [done..|]. by intros [|].
Qed.

(** Whatever the mode, a [put_map] that returns has written under the map
    name only. *)
Lemma put_map_returns self map_name map_data w self' w' :
  is_map_name map_name = true →
  put_map self map_name map_data w = (Ok self', w') →
  ∃ v, self' = with_attr self map_name v ∧ heap w' = heap w ∧ stdout w' = stdout w.
Proof.
  intros Hn. unfold put_map, get_map. unfold_M.
  destruct (do_cache self) as [[]|]; simpl; try discriminate.
  - destruct (func_store_map _ _ _ _) as [[[]|] x1]; simpl; try discriminate.
    destruct (func_retrieve_map _ _ _) as [[a|] x2]; simpl; try discriminate.
    rewrite setattr_map_name by done. intros [= <- <-]. by eexists.
  - rewrite setattr_map_name by done. intros [= <- <-]. by eexists.
Qed.

(** X2. A [put_map] on a map name that returns, cached or not, changes
    nothing but the attribute of that name: the identity of the container,
    every other attribute, the cache flag, the interactive flag and the
    options reference are as before, no options object is touched and
    nothing is printed. *)
Theorem put_map_frame (self self' : Image) (map_name : string) (map_data : ndarray)
    (w w' : World) :
  is_map_name map_name = true →
  put_map self map_name map_data w = (Ok self', w') →
  obj_id self' = obj_id self ∧
  (∀ other, other ≠ map_name → attrs self' !! other = attrs self !! other) ∧
  do_cache self' = do_cache self ∧
  _is_interactive_shell self' = _is_interactive_shell self ∧
  getattr self' "opts" = getattr self "opts" ∧
  heap w' = heap w ∧ stdout w' = stdout w.
Proof.
  intros Hn Hp. destruct (put_map_returns _ _ _ _ _ _ Hn Hp) as (v & -> & Hh & Hs).
  repeat split; try done.
  - intros other Ho. simpl. by rewrite lookup_insert_ne.
  - by apply do_cache_with_attr.
  - by apply interactive_with_attr.
  - by apply opts_with_attr.
Qed.


(** X4. Without caching, two writes compose: after [put_map(n1, d1)] and
    then [put_map(n2, d2)], [get_map(n2)] returns [d2] (so a second write
    under the same name replaces the first), and [get_map(n1)] still
    returns [d1] when the names differ. *)
Theorem put_map_twice_uncached (self : Image) (n1 n2 : string) (d1 d2 : ndarray) (w : World) :
  is_map_name n1 = true →
  is_map_name n2 = true →
  do_cache self = Ok false →
  let s1 := with_attr self n1 (VArr d1) in
  let s2 := with_attr s1 n2 (VArr d2) in
  put_map self n1 d1 w = (Ok s1, w) ∧
  put_map s1 n2 d2 w = (Ok s2, w) ∧
  get_map s2 n2 w = (Ok (VArr d2), w) ∧
  (n1 ≠ n2 → get_map s2 n1 w = (Ok (VArr d1), w)).
Proof.
  intros H1 H2 Hc s1 s2.
  assert (Hc1 : do_cache s1 = Ok false) by (unfold s1; by rewrite do_cache_with_attr).
  assert (Hc2 : do_cache s2 = Ok false) by (unfold s2; by rewrite do_cache_with_attr).
  repeat split.
  - unfold put_map. unfold_M. rewrite Hc. simpl. by rewrite setattr_map_name.
  - unfold put_map. unfold_M. rewrite Hc1. simpl. by rewrite setattr_map_name.
  - unfold get_map. unfold_M. rewrite Hc2. simpl. unfold s2. by rewrite getattr_with_attr.
  - intros Hne. unfold get_map. unfold_M. rewrite Hc2. simpl.
    unfold s2, s1, getattr, is_map_name in *. simpl.
    rewrite lookup_insert_ne, lookup_insert_eq by done.
    destruct (class_lookup n1) as [[[] ?| |]|]; try discriminate; reflexivity.
Qed.

(** ** Further properties of the delegations *)

(** X5. What the collaborator of [export_image] or [write_catalog] returns
    is returned as it is, and an error that is not a runtime error passes
    through unchanged, in the interactive shell or not; nothing is printed. *)
Theorem delegation_passes_through (self : Image) (kwargs : Kwargs) (w : World)
    (r : Res PyVal) (x : Ext) :
  (∀ e, r = Raise e → is_RuntimeError e = false) →
  (interface_export_image self kwargs (ext w) = (r, x) →
     export_image self kwargs w = (r, with_call w (ExportImage (obj_id self) kwargs) x)) ∧
  (interface_write_catalog self kwargs (ext w) = (r, x) →
     write_catalog self kwargs w = (r, with_call w (WriteCatalog (obj_id self) kwargs) x)).
Proof.
  intros Hr. split; intros Hc.
  - unfold export_image, try_except_RuntimeError. unfold_M. rewrite Hc.
    destruct r as [v|e]; [done|]. by rewrite (Hr e eq_refl).
  - unfold write_catalog, try_except_RuntimeError. unfold_M. rewrite Hc.
    destruct r as [v|e]; [done|]. by rewrite (Hr e eq_refl).
Qed.

Lemma on_RuntimeError_raises self err interactive w e w' :
  _is_interactive_shell self = Ok interactive →
  on_RuntimeError self err w = (Raise e, w') →
  interactive = false ∧ exc_class e = RuntimeError.
Proof.
  intros Hi. unfold on_RuntimeError. unfold_M. rewrite Hi.
  destruct interactive; simpl; [discriminate|]. by intros [= <- <-].
Qed.

(** X6. Whatever the collaborator does, no runtime error leaves
    [export_image] or [write_catalog] in the interactive shell, and outside
    it a runtime error that leaves them is a plain RuntimeError, never an
    instance of a subclass. *)
Theorem delegation_escaping_error (self : Image) (kwargs : Kwargs) (w w' : World)
    (e : PyExc) (interactive : bool) :
  _is_interactive_shell self = Ok interactive →
  export_image self kwargs w = (Raise e, w') ∨ write_catalog self kwargs w = (Raise e, w') →
  is_RuntimeError e = true →
  interactive = false ∧ exc_class e = RuntimeError.
Proof.
  intros Hi [H|H] He; revert H.
  - unfold export_image, try_except_RuntimeError. unfold_M.
    destruct (interface_export_image self kwargs (ext w)) as [[v|e0] x]; simpl; [discriminate|].
    destruct (is_RuntimeError e0) eqn:He0.
    + intros H. by apply (on_RuntimeError_raises _ _ _ _ _ _ Hi H).
    + intros [= -> <-]. congruence.
  - unfold write_catalog, try_except_RuntimeError. unfold_M.
    destruct (interface_write_catalog self kwargs (ext w)) as [[v|e0] x]; simpl; [discriminate|].
    destruct (is_RuntimeError e0) eqn:He0.
    + intros H. by apply (on_RuntimeError_raises _ _ _ _ _ _ Hi H).
    + intros [= -> <-]. congruence.
Qed.

(** ** Further properties of construction and loading *)


Lemma get_opts_filename_world self w : (get_opts_filename self w).2 = w.
Proof.
  unfold get_opts_filename. unfold_M.
  destruct (getattr self "opts") as [[]|]; try done.
  by destruct (heap w !! r).
Qed.

Lemma fresh_not_allocated (h : gmap loc Opts) r : is_Some (h !! r) → fresh (dom h) ≠ r.
Proof. intros Hr Heq. apply (is_fresh (dom h)). rewrite Heq. by apply elem_of_dom. Qed.

(** The branch of [load_pars] in which the loader returned an image. *)
Lemma load_pars_from_loaded self p w pars err x :
  os_path_exists p (ext w) = true →
  interface_load_pars p (ext w) = (Ok (Some pars, err), x) →
  let r' := fresh (dom (heap w)) in
  let w1 := with_heap (with_call w (LoadPars p) x) (<[r' := pars]> (heap w)) in
  load_pars_from self p w =
    match (get_opts_filename self w1).1 with
    | Ok orig => (Ok (with_attr self "opts" (VRef r')),
                  with_heap w1 (<[r' := set_filename pars orig]> (heap w1)))
    | Raise e => (Raise e, w1)
    end.
Proof.
  intros He Hl r' w1. unfold load_pars_from. unfold_M. rewrite He, Hl. simpl.
  fold r'. fold w1. pose proof (get_opts_filename_world self w1) as Hw.
  destruct (get_opts_filename self w1) as [[orig|e] w2]; simpl in *; subst w2; [|done].
  unfold put_opts_filename. unfold_M. simpl.
  rewrite lookup_insert_eq. simpl. by rewrite lookup_insert_eq.
Qed.

Lemma load_pars_from_heap self p w r :
  is_Some (heap w !! r) → heap (load_pars_from self p w).2 !! r = heap w !! r.
Proof.
  intros Hr. pose proof (fresh_not_allocated _ _ Hr) as Hne.
  destruct (os_path_exists p (ext w)) eqn:He.
  - destruct (interface_load_pars p (ext w)) as [[[[pars|] err]|e] x] eqn:Hl.
    + rewrite (load_pars_from_loaded self p w pars err x He Hl).
      destruct (get_opts_filename _ _).1; simpl; by rewrite ?lookup_insert_ne.
    + unfold load_pars_from. unfold_M. rewrite He, Hl. simpl.
      by destruct (_is_interactive_shell self) as [[]|].
    + unfold load_pars_from. unfold_M. by rewrite He, Hl.
  - unfold load_pars_from. unfold_M. rewrite He.
    by destruct (_is_interactive_shell self) as [[]|].
Qed.

(** X7. [load_pars] never changes an options object that existed before
    the call, whatever the outcome: the file name is reset on the object
    that was loaded. So the options of the container as it was, and of any
    other container, read as before. *)
Theorem load_pars_heap_frame (self : Image) (loadfile : option string) (w : World) :
  let w' := (load_pars self loadfile w).2 in
  (∀ r, is_Some (heap w !! r) → heap w' !! r = heap w !! r) ∧
  (∀ other, has_options w other →
            (get_opts_filename other w').1 = (get_opts_filename other w).1).
Proof.
  intros w'.
  assert (H : ∀ r, is_Some (heap w !! r) → heap w' !! r = heap w !! r).
  { intros r Hr. unfold w', load_pars. unfold_M.
    pose proof (resolve_loadfile_world self loadfile w) as Hw.
    destruct (resolve_loadfile self loadfile w) as [[p|e] w0]; simpl in Hw; subst w0; [|done].
    by apply load_pars_from_heap. }
  split; [done|].
  intros other (r & o & Hr & Ho). unfold get_opts_filename. unfold_M.
  rewrite Hr. simpl. rewrite H by (by rewrite Ho). by rewrite Ho.
Qed.

(** X8. Whenever [load_pars] returns on a container that holds its options,
    after a successful load or after an error printed in the interactive
    shell, the container still holds options, with the [filename] it had
    before; so a later [load_pars()] resolves to the same default path. *)
Theorem load_pars_keeps_filename (self self' : Image) (loadfile : option string)
    (w w' : World) (r : loc) (o : Opts) :
  getattr self "opts" = Ok (VRef r) →
  heap w !! r = Some o →
  load_pars self loadfile w = (Ok self', w') →
  has_options w' self' ∧
  get_opts_filename self' w' = (Ok (filename o), w') ∧
  resolve_loadfile self' None w' = (Ok (filename o +:+ ".pybdsm.sav"), w').
Proof.
  intros Hr Ho Hload.
  assert (Hkeep : ∃ r' o', getattr self' "opts" = Ok (VRef r') ∧ heap w' !! r' = Some o' ∧
                           filename o' = filename o).
  { revert Hload. unfold load_pars. unfold_M.
    pose proof (resolve_loadfile_world self loadfile w) as Hw.
    destruct (resolve_loadfile self loadfile w) as [[p|e] w0]; simpl in Hw; subst w0;
      [|discriminate].
    destruct (os_path_exists p (ext w)) eqn:He.
    - destruct (interface_load_pars p (ext w)) as [[[[pars|] err]|e] x] eqn:Hl.
      + rewrite (load_pars_from_loaded self p w pars err x He Hl).
        rewrite (get_opts_filename_ok self _ r o); try done.
        * simpl. intros [= <- <-]. eexists _, _. split; [|split].
          -- unfold getattr. simpl. by rewrite lookup_insert_eq.
          -- simpl. by rewrite lookup_insert_eq.
          -- done.
        * simpl. rewrite lookup_insert_ne; [done|].
          apply fresh_not_allocated. by rewrite Ho.
      + unfold load_pars_from. unfold_M. rewrite He, Hl. simpl.
        destruct (_is_interactive_shell self) as [[]|]; simpl; try discriminate.
        intros [= <- <-]. by exists r, o.
      + unfold load_pars_from. unfold_M. rewrite He, Hl. discriminate.
    - unfold load_pars_from. unfold_M. rewrite He. simpl.
      destruct (_is_interactive_shell self) as [[]|]; simpl; try discriminate.
      intros [= <- <-]. by exists r, o. }
  destruct Hkeep as (r' & o' & Hr' & Ho' & Hf).
  assert (Hg : get_opts_filename self' w' = (Ok (filename o), w')).
  { rewrite <- Hf. by apply (get_opts_filename_ok self' w' r' o'). }
  split; [by exists r', o'|]. split; [done|].
  unfold resolve_loadfile. unfold_M. by rewrite Hg.
Qed.

(** X9. An error that leaves [load_pars] on a container that holds its
    options is either the loader's own error or, outside the interactive
    shell only, a plain RuntimeError; in the interactive shell [load_pars]
    raises nothing of its own. *)
Theorem load_pars_raises (self : Image) (loadfile : option string) (w w' : World)
    (r : loc) (o : Opts) (e : PyExc) (interactive : bool) :
  getattr self "opts" = Ok (VRef r) →
  heap w !! r = Some o →
  _is_interactive_shell self = Ok interactive →
  load_pars self loadfile w = (Raise e, w') →
  (∃ p x, interface_load_pars p (ext w) = (Raise e, x)) ∨
  (interactive = false ∧ exc_class e = RuntimeError).
Proof.
  intros Hr Ho Hi. unfold load_pars. unfold_M.
  assert (Hres : ∃ p, resolve_loadfile self loadfile w = (Ok p, w)).
  { destruct loadfile as [[|a p]|]; try by eexists.
    all: unfold resolve_loadfile; unfold_M;
      rewrite (get_opts_filename_ok self w r o) by done; by eexists. }
  destruct Hres as [p ->].
  destruct (os_path_exists p (ext w)) eqn:He.
  - destruct (interface_load_pars p (ext w)) as [[[[pars|] err]|e0] x] eqn:Hl.
    + rewrite (load_pars_from_loaded self p w pars err x He Hl).
      rewrite (get_opts_filename_ok self _ r o); try done.
      simpl. rewrite lookup_insert_ne; [done|].
      apply fresh_not_allocated. by rewrite Ho.
    + unfold load_pars_from. unfold_M. rewrite He, Hl. simpl. rewrite Hi.
      destruct interactive; simpl; [discriminate|]. intros [= <- <-]. by right.
    + unfold load_pars_from. unfold_M. rewrite He, Hl. intros [= <- <-].
      left. by exists p, x.
  - unfold load_pars_from. unfold_M. rewrite He. simpl. rewrite Hi.
    destruct interactive; simpl; [discriminate|]. intros [= <- <-]. by right.
Qed.

End Image.

(** ** State transfer *)

Lemma setattr_unbound self name v :
  class_lookup name = None → setattr self name v = Ok (with_attr self name v).
Proof. intros H. unfold setattr. by rewrite H. Qed.

(** C7 (as the code has it). On a container where [thresh_pix],
    [minpix_isl] and [clipped_mean] have been set, [__getstate__] returns a
    dictionary with exactly these three keys and their values, and
    [__setstate__] of that dictionary sets exactly these three attributes
    on the receiving instance, leaving every other attribute as it was. *)
Theorem state_transfer (self : Image) (v1 v2 v3 : PyVal) :
  attrs self !! "thresh_pix" = Some v1 →
  attrs self !! "minpix_isl" = Some v2 →
  attrs self !! "clipped_mean" = Some v3 →
  let state : gmap string PyVal :=
    <["clipped_mean" := v3]> (<["minpix_isl" := v2]> (<["thresh_pix" := v1]> ∅)) in
  __getstate__ self = Ok state ∧
  dom state = ({[ "thresh_pix"; "minpix_isl"; "clipped_mean" ]} : gset string) ∧
  ∀ other : Image, ∃ other',
    __setstate__ other state = Ok other' ∧
    obj_id other' = obj_id other ∧
    attrs other' = <["clipped_mean" := v3]> (<["minpix_isl" := v2]> (<["thresh_pix" := v1]> (attrs other))) ∧
    ∀ name, name ∉ ({[ "thresh_pix"; "minpix_isl"; "clipped_mean" ]} : gset string) →
            attrs other' !! name = attrs other !! name.
Proof.
  intros H1 H2 H3 state. split; [|split].
  - unfold __getstate__, mbind, Res_bind, res_bind.
    rewrite !getattr_unbound by reflexivity. by rewrite H1, H2, H3.
  - unfold state. rewrite !dom_insert_L, dom_empty_L. set_solver.
  - intros other. eexists. split; [|split; [|split]].
    + unfold __setstate__, getitem, state, mbind, Res_bind, res_bind.
      rewrite lookup_insert_ne, lookup_insert_ne, lookup_insert_eq by done.
      rewrite setattr_unbound by reflexivity.
      rewrite lookup_insert_ne, lookup_insert_eq by done.
      rewrite setattr_unbound by reflexivity.
      rewrite lookup_insert_eq.
      rewrite setattr_unbound by reflexivity. reflexivity.
    + reflexivity.
    + reflexivity.
    + intros name Hn. simpl.
      rewrite !lookup_insert_ne; [done | set_solver..].
Qed.

Lemma getstate_inv self state :
  __getstate__ self = Ok state →
  ∃ v1 v2 v3,
    attrs self !! "thresh_pix" = Some v1 ∧
    attrs self !! "minpix_isl" = Some v2 ∧
    attrs self !! "clipped_mean" = Some v3 ∧
    state = <["clipped_mean" := v3]> (<["minpix_isl" := v2]> (<["thresh_pix" := v1]> ∅)).
Proof.
  unfold __getstate__, mbind, Res_bind, res_bind.
  rewrite !getattr_unbound by reflexivity.
  destruct (attrs self !! "thresh_pix") as [v1|]; [|discriminate].
  destruct (attrs self !! "minpix_isl") as [v2|]; [|discriminate].
  destruct (attrs self !! "clipped_mean") as [v3|]; [|discriminate].
  intros [= <-]. by exists v1, v2, v3.
Qed.

Lemma setstate_three other (state : gmap string PyVal) v1 v2 v3 :
  state !! "thresh_pix" = Some v1 →
  state !! "minpix_isl" = Some v2 →
  state !! "clipped_mean" = Some v3 →
  __setstate__ other state
    = Ok (with_attr (with_attr (with_attr other "thresh_pix" v1) "minpix_isl" v2)
            "clipped_mean" v3).
Proof.
  intros H1 H2 H3. unfold __setstate__, getitem, mbind, Res_bind, res_bind.
  rewrite H1, setattr_unbound by reflexivity.
  rewrite H2, setattr_unbound by reflexivity.
  by rewrite H3, setattr_unbound by reflexivity.
Qed.

(** X10. [__getstate__] returns a state exactly when [thresh_pix],
    [minpix_isl] and [clipped_mean] are all set on the container;
    otherwise it fails with an attribute-not-found error naming the first
    of them, in this order, that is missing. *)
Theorem getstate_missing_attribute (self : Image) :
  (attrs self !! "thresh_pix" = None →
     __getstate__ self = Raise (no_attribute "thresh_pix")) ∧
  (is_Some (attrs self !! "thresh_pix") → attrs self !! "minpix_isl" = None →
     __getstate__ self = Raise (no_attribute "minpix_isl")) ∧
  (is_Some (attrs self !! "thresh_pix") → is_Some (attrs self !! "minpix_isl") →
     attrs self !! "clipped_mean" = None →
     __getstate__ self = Raise (no_attribute "clipped_mean")) ∧
  (is_Ok (__getstate__ self) = true ↔
     is_Some (attrs self !! "thresh_pix") ∧ is_Some (attrs self !! "minpix_isl") ∧
     is_Some (attrs self !! "clipped_mean")).
Proof.
  unfold __getstate__, mbind, Res_bind, res_bind.
  rewrite !getattr_unbound by reflexivity.
  destruct (attrs self !! "thresh_pix") as [v1|];
    destruct (attrs self !! "minpix_isl") as [v2|];
    destruct (attrs self !! "clipped_mean") as [v3|]; simpl;
    repeat split; try done; try (by intros [? ?]); try (by intros ? [? ?]);
    try (by intros ? ? [? ?]); try (by intros ([? ?] & _)); try (by intros (_ & [? ?] & _));
    try (by intros (_ & _ & [? ?])); eauto.
Qed.

(** X11. [__setstate__] reads the keys [thresh_pix], [minpix_isl] and
    [clipped_mean] of the state and nothing else: whatever other keys the
    state holds, exactly these three attributes are assigned. A state that
    lacks one of the keys gives a KeyError naming the first one missing. *)
Theorem setstate_keys (other : Image) (state : gmap string PyVal) :
  (∀ v1 v2 v3,
     state !! "thresh_pix" = Some v1 → state !! "minpix_isl" = Some v2 →
     state !! "clipped_mean" = Some v3 →
     ∃ other', __setstate__ other state = Ok other' ∧
       obj_id other' = obj_id other ∧
       attrs other' = <["clipped_mean" := v3]> (<["minpix_isl" := v2]>
                        (<["thresh_pix" := v1]> (attrs other)))) ∧
  (state !! "thresh_pix" = None →
     __setstate__ other state = Raise (mkExc KeyError "'thresh_pix'")) ∧
  (is_Some (state !! "thresh_pix") → state !! "minpix_isl" = None →
     __setstate__ other state = Raise (mkExc KeyError "'minpix_isl'")) ∧
  (is_Some (state !! "thresh_pix") → is_Some (state !! "minpix_isl") →
     state !! "clipped_mean" = None →
     __setstate__ other state = Raise (mkExc KeyError "'clipped_mean'")).
Proof.
  split; [|split; [|split]].
  - intros v1 v2 v3 H1 H2 H3. eexists. split; [by apply setstate_three|]. done.
  - intros H1. unfold __setstate__, getitem, mbind, Res_bind, res_bind. by rewrite H1.
  - intros [v1 H1] H2. unfold __setstate__, getitem, mbind, Res_bind, res_bind.
    rewrite H1, setattr_unbound by reflexivity. by rewrite H2.
  - intros [v1 H1] [v2 H2] H3. unfold __setstate__, getitem, mbind, Res_bind, res_bind.
    rewrite H1, setattr_unbound by reflexivity.
    rewrite H2, setattr_unbound by reflexivity. by rewrite H3.
Qed.

(** X12. The state transfer is a round trip: a state that [__getstate__]
    returns can be restored by [__setstate__] on any instance, whatever
    attributes that instance holds, and [__getstate__] of the restored
    instance returns the same state. *)
Theorem state_round_trip (self other : Image) (state : gmap string PyVal) :
  __getstate__ self = Ok state →
  ∃ other', __setstate__ other state = Ok other' ∧ __getstate__ other' = Ok state.
Proof.
  intros (v1 & v2 & v3 & _ & _ & _ & ->)%getstate_inv.
  eexists. split.
  - apply setstate_three.
    + by rewrite lookup_insert_ne, lookup_insert_ne, lookup_insert_eq.
    + by rewrite lookup_insert_ne, lookup_insert_eq.
    + by rewrite lookup_insert_eq.
  - unfold __getstate__, mbind, Res_bind, res_bind.
    rewrite !getattr_unbound by reflexivity. simpl.
    rewrite lookup_insert_ne, lookup_insert_ne, lookup_insert_eq by done.
    rewrite lookup_insert_ne, lookup_insert_eq by done.
    by rewrite lookup_insert_eq.
Qed.

(** ** The theorems on the concrete disk *)


Lemma init_img1 : __init__ 7 Disk.opts0 Disk.world0 = (Ok Disk.img1, Disk.world1).
Proof. reflexivity. Qed.

(** A write and a read of [ch0] without caching. *)
Lemma put_map_get_map_uncached_witness :
  is_map_name "ch0" = true ∧ do_cache Disk.img1 = Ok false ∧
  let self' := with_attr Disk.img1 "ch0" (VArr Disk.a1) in
  put_map Disk.store_map Disk.retrieve_map Disk.img1 "ch0" Disk.a1 Disk.world1
    = (Ok self', Disk.world1) ∧
  get_map Disk.retrieve_map self' "ch0" Disk.world1 = (Ok (VArr Disk.a1), Disk.world1).
Proof.
  split; [reflexivity | split; [reflexivity |]].
  exact (put_map_get_map_uncached Disk.store_map Disk.retrieve_map
           Disk.img1 "ch0" Disk.a1 Disk.world1 eq_refl eq_refl).
Defined.


(** Reading a map that a processing stage inserted. *)
Lemma get_map_uncached_witness :
  let self := with_attr Disk.img1 "rms" (VArr Disk.a1) in
  do_cache self = Ok false ∧
  get_map Disk.retrieve_map self "rms" Disk.world1 = (Ok (VArr Disk.a1), Disk.world1) ∧
  get_map Disk.retrieve_map self "mean" Disk.world1 = (Raise (no_attribute "mean"), Disk.world1).
Proof.
  intros self.
  pose proof (get_map_uncached Disk.retrieve_map self "rms" Disk.world1 eq_refl)
    as (_ & Hw & _).
  pose proof (get_map_uncached Disk.retrieve_map self "mean" Disk.world1 eq_refl)
    as (_ & _ & Hn & _).
  split; [reflexivity | split].
  - exact (Hw _ eq_refl eq_refl).
  - exact (Hn eq_refl eq_refl).
Defined.

(** C9 fails as stated: on a container fresh from the constructor, with
    caching disabled, nothing was ever written under [ch0], and
    [get_map('ch0')] returns the initial value of the declared property
    instead of failing. *)
Lemma get_map_unwritten_ch0 :
  do_cache Disk.img1 = Ok false ∧
  attrs Disk.img1 !! "ch0" = None ∧
  get_map Disk.retrieve_map Disk.img1 "ch0" Disk.world1 = (Ok VNone, Disk.world1) ∧
  get_map Disk.retrieve_map Disk.img1 "ch0" Disk.world1
    ≠ (Raise (no_attribute "ch0"), Disk.world1).
Proof. repeat split; try reflexivity. discriminate. Qed.

(** A processed container and its state. *)
Lemma state_transfer_witness :
  let self := with_attr (with_attr (with_attr Disk.img1 "thresh_pix" (VFloat 4617315517961601024))
                           "minpix_isl" (VInt 6)) "clipped_mean" (VFloat 0) in
  __getstate__ self
    = Ok (<["clipped_mean" := VFloat 0]> (<["minpix_isl" := VInt 6]>
            (<["thresh_pix" := VFloat 4617315517961601024]> ∅))) ∧
  ∃ other',
    __setstate__ (mkImage 9 ∅)
      (<["clipped_mean" := VFloat 0]> (<["minpix_isl" := VInt 6]>
            (<["thresh_pix" := VFloat 4617315517961601024]> ∅))) = Ok other' ∧
    attrs other' !! "opts" = None.
Proof.
  intros self.
  pose proof (state_transfer self (VFloat 4617315517961601024) (VInt 6) (VFloat 0)
                eq_refl eq_refl eq_refl) as (Hget & _ & Hset).
  split; [exact Hget |].
  destruct (Hset (mkImage 9 ∅)) as (other' & Hs & _ & _ & Hframe).
  exists other'. split; [exact Hs |].
  rewrite Hframe; [reflexivity |].
  by rewrite !not_elem_of_union, !not_elem_of_singleton.
Defined.

(** C7 fails as stated: the container the constructor returns has none of
    the three attributes, and [__getstate__] raises instead of producing a
    state. *)
Lemma getstate_fresh_image_raises :
  __init__ 7 Disk.opts0 Disk.world0 = (Ok Disk.img1, Disk.world1) ∧
  __getstate__ Disk.img1 = Raise (no_attribute "thresh_pix").
Proof. split; reflexivity. Qed.

(** [show_fit] before and after processing. *)
Lemma show_fit_spec_witness :
  show_fit Disk.plotresults Disk.img1 ∅ Disk.world1
    = (Ok false, with_print Disk.world1 "Image has not been processed. Please run process_image first.") ∧
  show_fit Disk.plotresults (with_attr Disk.img1 "nisl" (VInt 3)) ∅ Disk.world1
    = (Ok true, with_call Disk.world1 (PlotResults 7 ∅) Disk.disk0).
Proof.
  split.
  - pose proof (show_fit_spec Disk.plotresults Disk.img1 ∅ Disk.world1) as [H _].
    exact (proj1 (H eq_refl)).
  - pose proof (show_fit_spec Disk.plotresults (with_attr Disk.img1 "nisl" (VInt 3)) ∅ Disk.world1)
      as [_ H].
    exact (H (ex_intro _ (VInt 3) eq_refl)).
Defined.

(** Exporting an unprocessed image, outside the interactive shell and in it. *)
Lemma delegation_RuntimeError_witness :
  let err := mkExc RuntimeError "Image has not been processed." in
  let shell := with_attr Disk.img1 "_is_interactive_shell" (VBool true) in
  export_image Disk.export_image Disk.img1 ∅ Disk.world1
    = (Raise err, with_call Disk.world1 (ExportImage 7 ∅) Disk.disk0) ∧
  write_catalog Disk.write_catalog shell ∅ Disk.world1
    = (Ok VNone, with_print (with_call Disk.world1 (WriteCatalog 7 ∅) Disk.disk0)
                   (ERROR_prefix +:+ "Image has not been processed.")).
Proof.
  intros err shell. split.
  - pose proof (delegation_RuntimeError Disk.export_image Disk.write_catalog
                  Disk.img1 ∅ Disk.world1 err Disk.disk0 false eq_refl eq_refl) as (H & _ & _).
    exact (H eq_refl).
  - pose proof (delegation_RuntimeError Disk.export_image Disk.write_catalog
                  shell ∅ Disk.world1 err Disk.disk0 true eq_refl eq_refl) as (_ & H & _).
    exact (H eq_refl).
Defined.

(** C4 fails as stated: the exporter raises a NotImplementedError, which
    [except RuntimeError] catches, and what leaves [export_image] outside
    the interactive shell is a RuntimeError, not the error that was raised. *)
Lemma export_image_reraise_changes_error :
  let self := with_attr Disk.img1 "nisl" (VInt 3) in
  let err := mkExc NotImplementedError "Unknown image type." in
  _is_interactive_shell self = Ok false ∧
  Disk.export_image self ∅ Disk.disk0 = (Raise err, Disk.disk0) ∧
  is_RuntimeError err = true ∧
  (export_image Disk.export_image self ∅ Disk.world1).1
    = Raise (mkExc RuntimeError "Unknown image type.") ∧
  (export_image Disk.export_image self ∅ Disk.world1).1 ≠ Raise err.
Proof. repeat split; try reflexivity. discriminate. Qed.

(** Loading with no path given, from a container made for 'img.fits'. *)
Lemma load_pars_default_path_witness :
  getattr Disk.img1 "opts" = Ok (VRef 0) ∧
  heap Disk.world1 !! 0 = Some Disk.opts0 ∧
  resolve_loadfile Disk.img1 None Disk.world1 = (Ok "img.fits.pybdsm.sav", Disk.world1) ∧
  resolve_loadfile Disk.img1 (Some "") Disk.world1 = (Ok "img.fits.pybdsm.sav", Disk.world1) ∧
  resolve_loadfile Disk.img1 (Some "notes.txt") Disk.world1 = (Ok "notes.txt", Disk.world1).
Proof.
  pose proof (load_pars_default_path Disk.path_exists Disk.load_pars
                Disk.img1 Disk.world1 0 Disk.opts0 eq_refl eq_refl)
    as (Hn & He & _ & _ & Hp).
  split; [reflexivity | split; [reflexivity |]].
  split; [exact Hn | split; [exact He |]].
  apply (Hp "notes.txt"). discriminate.
Defined.

(** Loading from a path that is not on the disk. *)
Lemma load_pars_file_not_found_witness :
  let shell := with_attr Disk.img1 "_is_interactive_shell" (VBool true) in
  Disk.path_exists "nope.sav" Disk.disk0 = false ∧
  load_pars Disk.path_exists Disk.load_pars Disk.img1 (Some "nope.sav") Disk.world1
    = (Raise (mkExc RuntimeError "File not found"), Disk.world1) ∧
  load_pars Disk.path_exists Disk.load_pars shell (Some "nope.sav") Disk.world1
    = (Ok shell, with_print Disk.world1 (ERROR_prefix +:+ "File 'nope.sav' not found.")).
Proof.
  intros shell. split; [reflexivity | split].
  - exact (load_pars_file_not_found Disk.path_exists Disk.load_pars
             Disk.img1 (Some "nope.sav") "nope.sav" Disk.world1 false eq_refl eq_refl eq_refl).
  - exact (load_pars_file_not_found Disk.path_exists Disk.load_pars
             shell (Some "nope.sav") "nope.sav" Disk.world1 true eq_refl eq_refl eq_refl).
Defined.


(** Loading the save file next to 'img.fits': the options saved for
    'other.fits' arrive, under the file name 'img.fits'. *)
Lemma load_pars_success_witness :
  ∃ self' w',
    load_pars Disk.path_exists Disk.load_pars Disk.img1 None Disk.world1 = (Ok self', w') ∧
    getattr self' "opts" = Ok (VRef 1) ∧
    heap w' !! 1 = Some (mkOpts "img.fits" (params Disk.saved_pars)) ∧
    filename Disk.saved_pars = "other.fits" ∧
    heap w' !! 0 = Some Disk.opts0.
Proof.
  pose proof (load_pars_success Disk.path_exists Disk.load_pars
                Disk.img1 None "img.fits.pybdsm.sav" Disk.world1 0 Disk.opts0
                Disk.saved_pars None Disk.disk0
                eq_refl eq_refl eq_refl eq_refl eq_refl)
    as (H & Hr & Hn & _ & _ & Ho & _).
  eexists _, _. split; [exact H |].
  split; [exact Hr | split; [exact Hn | split; [reflexivity | exact Ho]]].
Defined.

(** ** The further properties on the concrete disk *)

(** A cached write of [ch0] leaves the flags and the options reference. *)
Lemma put_map_frame_witness :
  let self := with_attr Disk.img1 "do_cache" (VBool true) in
  let self' := with_attr self "ch0" (VArr (Disk.to_float32 Disk.a1)) in
  let x1 := (Disk.store_map self "ch0" Disk.a1 Disk.disk0).2 in
  let w' := with_call (with_call Disk.world1 (StoreMap 7 "ch0" Disk.a1) x1)
              (RetrieveMap 7 "ch0") x1 in
  put_map Disk.store_map Disk.retrieve_map self "ch0" Disk.a1 Disk.world1 = (Ok self', w') ∧
  do_cache self' = Ok true ∧
  getattr self' "opts" = Ok (VRef 0) ∧
  attrs self' !! "extraparams" = Some (VDict ∅).
Proof.
  intros self self' x1 w'.
  pose proof (put_map_frame Disk.store_map Disk.retrieve_map self self' "ch0" Disk.a1
                Disk.world1 w' eq_refl eq_refl) as (_ & Hother & Hc & _ & Ho & _).
  split; [reflexivity |]. split; [exact Hc |]. split; [exact Ho |].
  rewrite (Hother "extraparams"); [reflexivity | discriminate].
Defined.


(** Writing [ch0] and then [rms]. *)
Lemma put_map_twice_uncached_witness :
  let a2 := NDArray [1] [9%Z] in
  let s2 := with_attr (with_attr Disk.img1 "ch0" (VArr Disk.a1)) "rms" (VArr a2) in
  get_map Disk.retrieve_map s2 "rms" Disk.world1 = (Ok (VArr a2), Disk.world1) ∧
  get_map Disk.retrieve_map s2 "ch0" Disk.world1 = (Ok (VArr Disk.a1), Disk.world1).
Proof.
  intros a2 s2.
  pose proof (put_map_twice_uncached Disk.store_map Disk.retrieve_map Disk.img1 "ch0" "rms"
                Disk.a1 a2 Disk.world1 eq_refl eq_refl eq_refl) as (_ & _ & H2 & H1).
  split; [exact H2 |]. apply H1. discriminate.
Defined.

(** Exporting the residual image of a processed container. *)
Lemma delegation_passes_through_witness :
  let self := with_attr Disk.img1 "nisl" (VInt 3) in
  let kwargs : gmap string PyVal := {[ "img_type" := VStr "gaus_resid" ]} in
  export_image Disk.export_image self kwargs Disk.world1
    = (Ok (VBool true), with_call Disk.world1 (ExportImage 7 kwargs) Disk.disk0).
Proof.
  intros self kwargs.
  assert (Hr : ∀ e, Ok (VBool true) = Raise e → is_RuntimeError e = false) by discriminate.
  pose proof (delegation_passes_through Disk.export_image Disk.write_catalog self kwargs
                Disk.world1 (Ok (VBool true)) Disk.disk0 Hr) as [H _].
  exact (H eq_refl).
Defined.

(** The error that leaves [export_image] on an unprocessed container. *)
Lemma delegation_escaping_error_witness :
  let e := mkExc RuntimeError "Image has not been processed." in
  _is_interactive_shell Disk.img1 = Ok false ∧
  (export_image Disk.export_image Disk.img1 ∅ Disk.world1).1 = Raise e ∧
  exc_class e = RuntimeError.
Proof.
  intros e. split; [reflexivity | split; [reflexivity |]].
  exact (proj2 (delegation_escaping_error Disk.export_image Disk.write_catalog Disk.img1 ∅
                  Disk.world1 (with_call Disk.world1 (ExportImage 7 ∅) Disk.disk0) e false
                  eq_refl (or_introl eq_refl) eq_refl)).
Defined.


(** Loading the save file leaves the options object of the container as
    it was before the call. *)
Lemma load_pars_heap_frame_witness :
  heap (load_pars Disk.path_exists Disk.load_pars Disk.img1 None Disk.world1).2 !! 0
    = Some Disk.opts0.
Proof.
  pose proof (load_pars_heap_frame Disk.path_exists Disk.load_pars Disk.img1 None Disk.world1)
    as [H _].
  rewrite (H 0); [reflexivity | by eexists].
Defined.

(** After the save file was loaded, the default path is the same. *)
Lemma load_pars_keeps_filename_witness :
  ∃ self' w',
    load_pars Disk.path_exists Disk.load_pars Disk.img1 None Disk.world1 = (Ok self', w') ∧
    resolve_loadfile self' None w' = (Ok "img.fits.pybdsm.sav", w').
Proof.
  eexists _, _. split; [reflexivity |].
  exact (proj2 (proj2 (load_pars_keeps_filename Disk.path_exists Disk.load_pars
                         Disk.img1 _ None Disk.world1 _ 0 Disk.opts0
                         eq_refl eq_refl eq_refl))).
Defined.

(** Loading from a path that is not on the disk, outside the shell. *)
Lemma load_pars_raises_witness :
  let e := mkExc RuntimeError "File not found" in
  load_pars Disk.path_exists Disk.load_pars Disk.img1 (Some "nope.sav") Disk.world1
    = (Raise e, Disk.world1) ∧
  ((∃ p x, Disk.load_pars p (ext Disk.world1) = (Raise e, x)) ∨
   (false = false ∧ exc_class e = RuntimeError)).
Proof.
  intros e. split; [reflexivity |].
  exact (load_pars_raises Disk.path_exists Disk.load_pars Disk.img1 (Some "nope.sav")
           Disk.world1 Disk.world1 0 Disk.opts0 e false eq_refl eq_refl eq_refl eq_refl).
Defined.

(** The state of a container on which only [thresh_pix] is set. *)
Lemma getstate_missing_attribute_witness :
  __getstate__ (with_attr Disk.img1 "thresh_pix" (VFloat 0))
    = Raise (no_attribute "minpix_isl").
Proof.
  pose proof (getstate_missing_attribute (with_attr Disk.img1 "thresh_pix" (VFloat 0)))
    as (_ & H & _).
  apply H; [by eexists | reflexivity].
Defined.

(** Restoring from a state with one more key, and from one with a key
    missing. *)
Lemma setstate_keys_witness :
  let state : gmap string PyVal :=
    {[ "thresh_pix" := VFloat 0; "minpix_isl" := VInt 6; "clipped_mean" := VFloat 0;
       "ch0" := VArr Disk.a1 ]} in
  (∃ other', __setstate__ (mkImage 9 ∅) state = Ok other' ∧ attrs other' !! "ch0" = None) ∧
  __setstate__ (mkImage 9 ∅) (delete "minpix_isl" state)
    = Raise (mkExc KeyError "'minpix_isl'").
Proof.
  intros state. split.
  - pose proof (setstate_keys (mkImage 9 ∅) state) as [H _].
    destruct (H (VFloat 0) (VInt 6) (VFloat 0) eq_refl eq_refl eq_refl)
      as (other' & Hs & _ & Ha).
    exists other'. split; [exact Hs |]. rewrite Ha. reflexivity.
  - pose proof (setstate_keys (mkImage 9 ∅) (delete "minpix_isl" state)) as (_ & _ & H & _).
    apply H; [by eexists | reflexivity].
Defined.

(** A state sent to an instance that already holds a threshold. *)
Lemma state_round_trip_witness :
  let self := with_attr (with_attr (with_attr Disk.img1 "thresh_pix" (VFloat 0))
                           "minpix_isl" (VInt 6)) "clipped_mean" (VFloat 0) in
  let state : gmap string PyVal :=
    <["clipped_mean" := VFloat 0]> (<["minpix_isl" := VInt 6]> (<["thresh_pix" := VFloat 0]> ∅)) in
  __getstate__ self = Ok state ∧
  ∃ other', __setstate__ (mkImage 9 {[ "thresh_pix" := VFloat 1 ]}) state = Ok other' ∧
            __getstate__ other' = Ok state.
Proof.
  intros self state. split; [reflexivity |].
  exact (state_round_trip self (mkImage 9 {[ "thresh_pix" := VFloat 1 ]}) state eq_refl).
Defined.
